(** * turf-boolean-within: the containment predicate of
    [packages/turf-boolean-within/index.js], embedded function by function.

    JavaScript numbers are IEEE-754 binary64 values, so coordinates are
    primitive floats: [===] on numbers is [PrimFloat.eqb], [<] is
    [PrimFloat.ltb], and [a > b] is [PrimFloat.ltb b a].  A call either
    returns a value or throws; the one value that is not a boolean is
    [undefined].  The packages the file imports are an interface
    ([Imports]) with a reference implementation ([SpecModel]) to run
    examples on. *)

From Stdlib Require Import Floats.PrimFloat Floats.SpecFloat Floats.FloatOps Floats.FloatAxioms.
From Stdlib Require Import List Bool String Arith ZArith PArith Lia.
From Stdlib Require Import Permutation.
Import ListNotations.

Set Implicit Arguments.

(** ** Data model *)

(** A position [[x, y]]. *)
Definition Coord : Type := (float * float)%type.

(** [calcBbox] yields the array [[minX, minY, maxX, maxY]]. *)
Definition BBox : Type := (float * float * float * float)%type.

Definition at0 (b : BBox) : float := let '(a, _, _, _) := b in a.
Definition at1 (b : BBox) : float := let '(_, a, _, _) := b in a.
Definition at2 (b : BBox) : float := let '(_, _, a, _) := b in a.
Definition at3 (b : BBox) : float := let '(_, _, _, a) := b in a.

(** The [coordinates] member of a Polygon: an array of rings, the outer
    ring first. *)
Definition Rings : Type := list (list Coord).

(** A GeoJSON geometry object: its [type] member decides the shape of its
    payload, so each type name is a constructor. *)
#[warnings="-register-all"]
Inductive Geometry : Type :=
| Point (coordinates : Coord)
| MultiPoint (coordinates : list Coord)
| LineString (coordinates : list Coord)
| MultiLineString (coordinates : list (list Coord))
| Polygon (coordinates : Rings)
| MultiPolygon (coordinates : list Rings)
| GeometryCollection (geometries : list Geometry).

(** What [booleanWithin] accepts: a Feature wrapping a geometry, or the
    geometry itself. *)
Inductive GeoJSON : Type :=
| Feature (geometry : Geometry)
| Geom (g : Geometry).

(** ** Outcomes of a call *)

Inductive exn : Type :=
| Error (message : string)   (* [throw new Error(message)] *)
| TypeError.                 (* reading a property of [undefined] *)

Inductive completion (A : Type) : Type :=
| Return (a : A)
| Throw (e : exn).
Arguments Throw {A} e.

Definition bind {A B : Type} (c : completion A) (k : A -> completion B)
  : completion B :=
  match c with
  | Return a => k a
  | Throw e => Throw e
  end.

Declare Scope completion_scope.
Delimit Scope completion_scope with completion.
Notation "x <- c ;; k" := (bind c (fun x => k))
  (at level 61, c at next level, right associativity) : completion_scope.
Local Open Scope completion_scope.

(** A JavaScript value as [booleanWithin] can return it: a boolean, or
    [undefined] when [isMultiPointInPoly] reads its never-assigned
    [isInside]. *)
Inductive value : Type :=
| VBool (b : bool)
| VUndefined.

(** ** Imported collaborators *)

(** The [type] member of a geometry object. *)
Definition typeName (g : Geometry) : string :=
  match g with
  | Point _ => "Point"
  | MultiPoint _ => "MultiPoint"
  | LineString _ => "LineString"
  | MultiLineString _ => "MultiLineString"
  | Polygon _ => "Polygon"
  | MultiPolygon _ => "MultiPolygon"
  | GeometryCollection _ => "GeometryCollection"
  end.

(** Modelled from the spec: [getGeom] of [@turf/invariant], which is not
    among the sources; it unwraps a feature and leaves a geometry alone. *)
Definition getGeom (feature : GeoJSON) : Geometry :=
  match feature with
  | Feature geometry => geometry
  | Geom g => g
  end.

(** Modelled from the spec: [getType] of [@turf/invariant], which is not
    among the sources; it normalises a feature-or-geometry input to its
    geometry type name. *)
Definition getType (feature : GeoJSON) : string := typeName (getGeom feature).

(** The three geometric imports ([@turf/inside], [@turf/bbox],
    [@turf/boolean-point-on-line]) are not among the sources.  The predicates
    are written against this interface, so what is proved of them holds for
    every implementation of the imports.  By their contract [inside] and
    [isPointOnLine] answer with a boolean and [calcBbox] with a box of four
    numbers.  The last argument of [inside] and
    [isPointOnLine] is the flag that excludes the boundary; a call that
    omits it passes [undefined], which is falsy, hence [false] here.
    [inside_undefined] is what [inside] does when its point is [undefined]. *)
Class Imports : Type := {
  inside : Coord -> Rings -> bool -> bool;
  inside_undefined : Rings -> bool -> completion bool;
  isPointOnLine : Coord -> list Coord -> bool -> bool;
  calcBbox : Geometry -> BBox
}.

(** ** Local primitives *)

(** [pair1[0] === pair2[0] && pair1[1] === pair2[1]] *)
Definition compareCoords (pair1 pair2 : Coord) : bool :=
  PrimFloat.eqb (fst pair1) (fst pair2) && PrimFloat.eqb (snd pair1) (snd pair2).

(** [[(pair1[0] + pair2[0]) / 2, (pair1[1] + pair2[1]) / 2]] *)
Definition getMidpoint (pair1 pair2 : Coord) : Coord :=
  (PrimFloat.div (PrimFloat.add (fst pair1) (fst pair2)) 2%float,
   PrimFloat.div (PrimFloat.add (snd pair1) (snd pair2)) 2%float).

(** A number is not NaN exactly when it is [===] to itself. *)
Definition isNumber (x : float) : bool := PrimFloat.eqb x x.

Definition numericBBox (b : BBox) : Prop :=
  isNumber (at0 b) = true /\ isNumber (at1 b) = true /\
  isNumber (at2 b) = true /\ isNumber (at3 b) = true.

(** The four early returns of [doBBoxOverlap], in source order;
    [a > b] is [b < a]. *)
Definition doBBoxOverlap (bbox1 bbox2 : BBox) : bool :=
  if PrimFloat.ltb (at0 bbox2) (at0 bbox1) then false
  else if PrimFloat.ltb (at2 bbox1) (at2 bbox2) then false
  else if PrimFloat.ltb (at1 bbox2) (at1 bbox1) then false
  else if PrimFloat.ltb (at3 bbox1) (at3 bbox2) then false
  else true.

(** ** Predicates *)

(** The [for] loop of [isPointInMultiPoint]: [output] becomes [true] at the
    first match and the loop breaks. *)
Fixpoint isPointInMultiPoint (point : Coord) (multiPoint : list Coord) : bool :=
  match multiPoint with
  | [] => false
  | c :: rest =>
      if compareCoords c point then true
      else isPointInMultiPoint point rest
  end.

(** The inner loop of [isMultiPointInMultiPoint]: it has no [break], it
    scans all of [multiPoint2] and keeps [anyMatch] once set. *)
Definition anyMatch (c1 : Coord) (multiPoint2 : list Coord) : bool :=
  fold_left (fun anyMatch c2 => if compareCoords c1 c2 then true else anyMatch)
            multiPoint2 false.

Fixpoint isMultiPointInMultiPoint (multiPoint1 multiPoint2 : list Coord) : bool :=
  match multiPoint1 with
  | [] => true
  | c1 :: rest =>
      if negb (anyMatch c1 multiPoint2) then false
      else isMultiPointInMultiPoint rest multiPoint2
  end.

Section Predicates.
Context {imports : Imports}.

(** The loop of [isMultiPointOnLine], from index [i] on, with the current
    [foundInsidePoint]. *)
Fixpoint isMultiPointOnLine_loop (coords lineString : list Coord)
         (foundInsidePoint : bool) : bool :=
  match coords with
  | [] => foundInsidePoint
  | c :: rest =>
      if negb (isPointOnLine c lineString false) then false
      else
        let foundInsidePoint :=
          if negb foundInsidePoint then isPointOnLine c lineString true
          else foundInsidePoint in
        isMultiPointOnLine_loop rest lineString foundInsidePoint
  end.

Definition isMultiPointOnLine (multiPoint lineString : list Coord) : bool :=
  isMultiPointOnLine_loop multiPoint lineString false.

(** [inside(multiPoint.coordinates[1], polygon, ignoreBoundary)]: the
    element read may be [undefined]. *)
Definition inside_at (c : option Coord) (polygon : Rings)
           (ignoreBoundary : bool) : completion bool :=
  match c with
  | Some c => Return (inside c polygon ignoreBoundary)
  | None => inside_undefined polygon ignoreBoundary
  end.

(** The loop of [isMultiPointInPoly].  [remaining] are the elements the
    index [i] has still to run over; the body never reads
    [coordinates[i]], only [coordinates[1]].  [oneInside] is never
    assigned.  The result is the pair [(output, isInside)] at loop exit. *)
Fixpoint isMultiPointInPoly_loop (remaining coordinates : list Coord)
         (polygon : Rings) (oneInside : bool) (isInside : value)
  : completion (bool * value) :=
  match remaining with
  | [] => Return (true, isInside)
  | _ :: remaining =>
      isInside <- inside_at (nth_error coordinates 1) polygon false ;;
      if negb isInside then Return (false, VBool isInside)
      else
        isInside <- (if negb oneInside
                     then inside_at (nth_error coordinates 1) polygon true
                     else Return isInside) ;;
        isMultiPointInPoly_loop remaining coordinates polygon oneInside
                                (VBool isInside)
  end.

(** [return output && isInside]: [&&] yields its left operand when that is
    falsy and its right operand otherwise. *)
Definition isMultiPointInPoly (multiPoint : list Coord) (polygon : Rings)
  : completion value :=
  r <- isMultiPointInPoly_loop multiPoint multiPoint polygon false VUndefined ;;
  let '(output, isInside) := r in
  Return (if output then isInside else VBool output).

Fixpoint isLineOnLine (lineString1 lineString2 : list Coord) : bool :=
  match lineString1 with
  | [] => true
  | c :: rest =>
      if negb (isPointOnLine c lineString2 false) then false
      else isLineOnLine rest lineString2
  end.

(** The loop of [isLineInPoly]: [i] runs while [i < length - 1], so the
    body sees [coordinates[i]] and its successor [coordinates[i + 1]]. *)
Fixpoint isLineInPoly_loop (coords : list Coord) (polygon : Rings)
         (foundInsidePoint : bool) : bool :=
  match coords with
  | c :: (next :: _) as rest =>
      if negb (inside c polygon false) then false
      else
        let foundInsidePoint :=
          if negb foundInsidePoint then inside c polygon true
          else foundInsidePoint in
        let foundInsidePoint :=
          if negb foundInsidePoint
          then inside (getMidpoint c next) polygon true
          else foundInsidePoint in
        isLineInPoly_loop rest polygon foundInsidePoint
  | _ => foundInsidePoint
  end.

Definition isLineInPoly (linestring : list Coord) (polygon : Rings) : bool :=
  let polyBbox := calcBbox (Polygon polygon) in
  let lineBbox := calcBbox (LineString linestring) in
  if negb (doBBoxOverlap polyBbox lineBbox) then false
  else isLineInPoly_loop linestring polygon false.

Fixpoint isPolyInPoly_loop (ring : list Coord) (feature2 : Rings) : bool :=
  match ring with
  | [] => true
  | c :: rest =>
      if negb (inside c feature2 false) then false
      else isPolyInPoly_loop rest feature2
  end.

(** [feature1.coordinates[0].length] throws a TypeError when
    [feature1.coordinates] is empty. *)
Definition isPolyInPoly (feature1 feature2 : Rings) : completion bool :=
  let poly1Bbox := calcBbox (Polygon feature1) in
  let poly2Bbox := calcBbox (Polygon feature2) in
  if negb (doBBoxOverlap poly2Bbox poly1Bbox) then Return false
  else
    match feature1 with
    | [] => Throw TypeError
    | ring :: _ => Return (isPolyInPoly_loop ring feature2)
    end.

Definition notSupported (which type : string) : exn :=
  Error (which ++ " " ++ type ++ " geometry not supported").

(** The nested [switch] of [booleanWithin].  The geometry's constructor
    stands for its type name ([typeName]), which the messages quote. *)
Definition booleanWithin (feature1 feature2 : GeoJSON) : completion value :=
  let type1 := getType feature1 in
  let type2 := getType feature2 in
  let geom1 := getGeom feature1 in
  let geom2 := getGeom feature2 in
  match geom1 with
  | Point point =>
      match geom2 with
      | MultiPoint multiPoint => Return (VBool (isPointInMultiPoint point multiPoint))
      | LineString lineString => Return (VBool (isPointOnLine point lineString true))
      | Polygon polygon => Return (VBool (inside point polygon true))
      | _ => Throw (notSupported "feature2" type2)
      end
  | MultiPoint multiPoint1 =>
      match geom2 with
      | MultiPoint multiPoint2 =>
          Return (VBool (isMultiPointInMultiPoint multiPoint1 multiPoint2))
      | LineString lineString => Return (VBool (isMultiPointOnLine multiPoint1 lineString))
      | Polygon polygon => isMultiPointInPoly multiPoint1 polygon
      | _ => Throw (notSupported "feature2" type2)
      end
  | LineString lineString1 =>
      match geom2 with
      | LineString lineString2 => Return (VBool (isLineOnLine lineString1 lineString2))
      | Polygon polygon => Return (VBool (isLineInPoly lineString1 polygon))
      | _ => Throw (notSupported "feature2" type2)
      end
  | Polygon polygon1 =>
      match geom2 with
      | Polygon polygon2 => b <- isPolyInPoly polygon1 polygon2 ;; Return (VBool b)
      | _ => Throw (notSupported "feature2" type2)
      end
  | _ => Throw (notSupported "feature1" type1)
  end.

End Predicates.

(** ** A reference implementation of the imports *)

Module SpecModel.

Definition fmin (a b : float) : float := if PrimFloat.ltb a b then a else b.
Definition fmax (a b : float) : float := if PrimFloat.ltb b a then a else b.

(** Every position of a geometry, in document order. *)
Fixpoint coordAll (g : Geometry) : list Coord :=
  match g with
  | Point c => [c]
  | MultiPoint cs => cs
  | LineString cs => cs
  | MultiLineString ls => List.concat ls
  | Polygon rs => List.concat rs
  | MultiPolygon ps => List.concat (map (@List.concat Coord) ps)
  | GeometryCollection gs => flat_map coordAll gs
  end.

(** Modelled from the spec: [calcBbox] of [@turf/bbox], which is not among
    the sources; the 4-tuple (minX, minY, maxX, maxY) derived from the
    geometry's coordinates. *)
Definition calcBbox (g : Geometry) : BBox :=
  fold_left
    (fun (b : BBox) (c : Coord) =>
       (fmin (at0 b) (fst c), fmin (at1 b) (snd c),
        fmax (at2 b) (fst c), fmax (at3 b) (snd c)))
    (coordAll g)
    (infinity, infinity, neg_infinity, neg_infinity).

(** [pt] lies on the closed segment from [a] to [b]: it is collinear with
    the two ends and inside their bounding rectangle. *)
Definition onSegment (a b pt : Coord) : bool :=
  let cross :=
    PrimFloat.sub
      (PrimFloat.mul (PrimFloat.sub (snd pt) (snd a)) (PrimFloat.sub (fst b) (fst a)))
      (PrimFloat.mul (PrimFloat.sub (fst pt) (fst a)) (PrimFloat.sub (snd b) (snd a))) in
  PrimFloat.eqb cross 0%float
  && PrimFloat.leb (fmin (fst a) (fst b)) (fst pt)
  && PrimFloat.leb (fst pt) (fmax (fst a) (fst b))
  && PrimFloat.leb (fmin (snd a) (snd b)) (snd pt)
  && PrimFloat.leb (snd pt) (fmax (snd a) (snd b)).

(** [pt] lies on one of the segments between consecutive positions. *)
Fixpoint onPath (pt : Coord) (path : list Coord) : bool :=
  match path with
  | a :: (b :: _) as rest => onSegment a b pt || onPath pt rest
  | _ => false
  end.

(** Modelled from the spec: [isPointOnLine] of
    [@turf/boolean-point-on-line], which is not among the sources;
    boundary-inclusive by default, and with [excludeBoundary] the two
    endpoints of the line do not count. *)
Definition isPointOnLine (pt : Coord) (line : list Coord)
           (excludeBoundary : bool) : bool :=
  onPath pt line
  && negb (excludeBoundary
           && match line with
              | [] => false
              | first :: _ =>
                  compareCoords pt first || compareCoords pt (last line first)
              end).

(** Parity of the crossings of the ray from [pt] towards +x with the
    edges of a closed ring. *)
Fixpoint crossings (pt : Coord) (ring : list Coord) (isInside : bool) : bool :=
  match ring with
  | a :: (b :: _) as rest =>
      let intersect :=
        negb (Bool.eqb (PrimFloat.ltb (snd pt) (snd a)) (PrimFloat.ltb (snd pt) (snd b)))
        && PrimFloat.ltb (fst pt)
             (PrimFloat.add
                (PrimFloat.div
                   (PrimFloat.mul (PrimFloat.sub (fst b) (fst a))
                                  (PrimFloat.sub (snd pt) (snd a)))
                   (PrimFloat.sub (snd b) (snd a)))
                (fst a)) in
      crossings pt rest (if intersect then negb isInside else isInside)
  | _ => isInside
  end.

(** Modelled from the spec: [inside] of [@turf/inside], which is not among
    the sources; membership in the polygon's outer ring, its boundary
    included unless [excludeBoundary] is set.  Holes are not consulted. *)
Definition inside (pt : Coord) (polygon : Rings) (excludeBoundary : bool) : bool :=
  match polygon with
  | [] => false
  | outer :: _ =>
      if onPath pt outer then negb excludeBoundary
      else crossings pt outer false
  end.

(** Modelled from the spec: [inside] handed [undefined] as its point; the
    collaborator fails fast. *)
Definition inside_undefined (polygon : Rings) (excludeBoundary : bool)
  : completion bool :=
  Throw (Error "point is required").

Definition imports : Imports :=
  Build_Imports inside inside_undefined isPointOnLine calcBbox.

End SpecModel.

(** ** Vocabulary of the specification *)

(** The segments of a LineString: the pairs of consecutive vertices. *)
Fixpoint segments (cs : list Coord) : list (Coord * Coord) :=
  match cs with
  | a :: (b :: _) as rest => (a, b) :: segments rest
  | _ => []
  end.

(** The dispatch table: the ordered pairs of type names that have a
    predicate. *)
Definition supportedPairs : list (string * string) :=
  [ ("Point", "MultiPoint"); ("Point", "LineString"); ("Point", "Polygon");
    ("MultiPoint", "MultiPoint"); ("MultiPoint", "LineString");
    ("MultiPoint", "Polygon");
    ("LineString", "LineString"); ("LineString", "Polygon");
    ("Polygon", "Polygon") ]%string.

Definition supportedTypes : list string :=
  [ "Point"; "MultiPoint"; "LineString"; "Polygon" ]%string.

(** MultiPoint-in-Polygon as the specification words it: every point
    inside or on the polygon, and at least one strictly interior, each point
    tested on its own. *)
Definition isMultiPointInPoly_spec `{Imports} (multiPoint : list Coord)
           (polygon : Rings) : bool :=
  forallb (fun c => inside c polygon false) multiPoint
  && existsb (fun c => inside c polygon true) multiPoint.

(** A strictly interior vertex that starts a segment, or a strictly
    interior segment midpoint. *)
Definition interiorWitness `{Imports} (cs : list Coord) (polygon : Rings) : Prop :=
  exists a b, In (a, b) (segments cs) /\
              (inside a polygon true = true \/
               inside (getMidpoint a b) polygon true = true).

(** The square of the specification's scenarios. *)
Definition square : Rings :=
  [[(0, 0); (0, 10); (10, 10); (10, 0); (0, 0)]]%float.

(** The line of the source's documentation example. *)
Definition docLine : list Coord := [(1, 1); (1, 2); (1, 3); (1, 4)]%float.

(** An L-shaped polygon: the square without its upper-left quarter. *)
Definition ell : Rings :=
  [[(0, 0); (10, 0); (10, 10); (5, 10); (5, 5); (0, 5); (0, 0)]]%float.

(** Both components of a position are numbers. *)
Definition numericCoord (c : Coord) : bool :=
  isNumber (fst c) && isNumber (snd c).





(** ** Properties *)

(** *** Comparison of numbers *)

Section NumberComparison.

Lemma SFcompare_antisym (x y : spec_float) :
  SFcompare y x = option_map CompOpp (SFcompare x y).
Proof.
  destruct x as [sx | sx | | sx mx ex], y as [sy | sy | | sy my ey];
    try destruct sx; try destruct sy; try reflexivity; simpl;
    rewrite (Z.compare_antisym ex ey);
    destruct (ex ?= ey)%Z; simpl; try reflexivity;
    rewrite (Pos.compare_cont_antisym mx my Eq); simpl;
    destruct (Pos.compare_cont Eq mx my); reflexivity.
Qed.

Lemma SFcompare_refl (x : spec_float) :
  SFcompare x x = None \/ SFcompare x x = Some Eq.
Proof.
  destruct x as [sx | sx | | sx mx ex]; try destruct sx; simpl; auto;
    rewrite Z.compare_refl; right; f_equal;
    change (Pos.compare_cont Eq mx mx) with (Pos.compare mx mx);
    rewrite Pos.compare_refl; reflexivity.
Qed.


Lemma compare_defined (x y : float) :
  isNumber x = true -> isNumber y = true ->
  exists c, SFcompare (Prim2SF x) (Prim2SF y) = Some c.
Proof.
  unfold isNumber. rewrite !FloatAxioms.eqb_spec. unfold SFeqb.
  destruct (Prim2SF x) as [sx | sx | | sx mx ex],
           (Prim2SF y) as [sy | sy | | sy my ey];
    simpl; try discriminate; eauto.
Qed.



End NumberComparison.

(** *** Dispatch *)

(** Replace the geometries of the two arguments by what the hypotheses say
    they are, and run the [switch]. *)
Ltac dispatch :=
  unfold booleanWithin, getType;
  repeat match goal with
         | H : getGeom _ = _ |- _ => rewrite H; clear H
         end;
  cbn [typeName bind].

(** *** Point in MultiPoint *)

Lemma isPointInMultiPoint_iff (p : Coord) (m : list Coord) :
  isPointInMultiPoint p m = true <->
  exists c, In c m /\ compareCoords c p = true.
Proof.
  induction m as [| c rest IH]; simpl.
  - split; [discriminate | intros [c [[] _]]].
  - destruct (compareCoords c p) eqn:E.
    + split; [intros _; exists c; auto | reflexivity].
    + rewrite IH. split.
      * intros [c' [Hin Hc]]. exists c'. auto.
      * intros [c' [[-> | Hin] Hc]]; [congruence | exists c'; auto].
Qed.

(** C5: a Point is within a MultiPoint exactly when one coordinate of the
    MultiPoint matches the point's coordinate, where a match is the
    component-wise [===] of the numbers and nothing looser: the call always
    returns a boolean, that boolean is [true] iff some element matches, and
    two coordinates match iff both their components are [===]. *)
Theorem point_within_multipoint_exact_match `{Imports} :
  forall (f1 f2 : GeoJSON) (p : Coord) (m : list Coord),
    getGeom f1 = Point p ->
    getGeom f2 = MultiPoint m ->
    (exists b, booleanWithin f1 f2 = Return (VBool b)) /\
    (booleanWithin f1 f2 = Return (VBool true) <->
     exists c, In c m /\
               PrimFloat.eqb (fst c) (fst p) = true /\
               PrimFloat.eqb (snd c) (snd p) = true).
Proof.
  intros f1 f2 p m H1 H2. dispatch. split; [eauto |].
  split.
  - intros E. injection E as E. apply isPointInMultiPoint_iff in E.
    destruct E as [c [Hin Hc]]. exists c. split; [exact Hin |].
    apply andb_true_iff. exact Hc.
  - intros [c [Hin Hc]]. do 2 f_equal. apply isPointInMultiPoint_iff.
    exists c. split; [exact Hin |]. apply andb_true_iff. exact Hc.
Qed.

(** The sum 0.1 + 0.2 is one unit in the last place above 0.3: with no
    tolerance the point (0.1 + 0.2, 0) is not within the MultiPoint of
    (0.3, 0). *)
Example point_within_multipoint_no_tolerance :
  @booleanWithin SpecModel.imports
    (Geom (Point (PrimFloat.add 0x1.999999999999ap-4 0x1.999999999999ap-3,
                  0%float)))
    (Geom (MultiPoint [(0x1.3333333333333p-2%float, 0%float)]))
  = Return (VBool false).
Proof. vm_compute. reflexivity. Qed.

Lemma point_within_multipoint_exact_match_witness :
  (exists b, @booleanWithin SpecModel.imports
               (Feature (Point (1, 2)%float))
               (Geom (MultiPoint [(0, 0); (1, 2)]%float)) = Return (VBool b)) /\
  (@booleanWithin SpecModel.imports
     (Feature (Point (1, 2)%float))
     (Geom (MultiPoint [(0, 0); (1, 2)]%float)) = Return (VBool true) <->
   exists c, In c [(0, 0); (1, 2)]%float /\
             PrimFloat.eqb (fst c) 1 = true /\ PrimFloat.eqb (snd c) 2 = true).
Proof.
  apply (@point_within_multipoint_exact_match SpecModel.imports
           (Feature (Point (1, 2)%float))
           (Geom (MultiPoint [(0, 0); (1, 2)]%float))
           (1, 2)%float [(0, 0); (1, 2)]%float); reflexivity.
Defined.

(** *** The bounding-box test *)



(** *** The empty MultiPoint *)

(** C9: a MultiPoint with no coordinates is within every MultiPoint (the
    outer loop never runs) and within no LineString (the interior-witness
    flag starts [false] and is never set). *)
Theorem empty_multipoint_asymmetry `{Imports} :
  forall f1 f2 : GeoJSON,
    getGeom f1 = MultiPoint [] ->
    (forall m, getGeom f2 = MultiPoint m ->
               booleanWithin f1 f2 = Return (VBool true)) /\
    (forall l, getGeom f2 = LineString l ->
               booleanWithin f1 f2 = Return (VBool false)).
Proof.
  intros f1 f2 H1. split; intros x H2; dispatch; reflexivity.
Qed.

Lemma empty_multipoint_asymmetry_witness :
  @booleanWithin SpecModel.imports
    (Geom (MultiPoint [])) (Feature (MultiPoint [(3, 4)]%float))
  = Return (VBool true) /\
  @booleanWithin SpecModel.imports
    (Geom (MultiPoint [])) (Geom (LineString [(0, 0); (3, 4)]%float))
  = Return (VBool false).
Proof.
  split.
  - apply (proj1 (@empty_multipoint_asymmetry SpecModel.imports
                    (Geom (MultiPoint []))
                    (Feature (MultiPoint [(3, 4)]%float)) eq_refl)
             [(3, 4)]%float eq_refl).
  - apply (proj2 (@empty_multipoint_asymmetry SpecModel.imports
                    (Geom (MultiPoint []))
                    (Geom (LineString [(0, 0); (3, 4)]%float)) eq_refl)
             [(0, 0); (3, 4)]%float eq_refl).
Defined.

(** *** MultiPoint on LineString *)

Section MultiPointOnLine.
Context {imports : Imports}.

Lemma isMultiPointOnLine_loop_iff (l : list Coord) :
  forall (cs : list Coord) (found : bool),
    isMultiPointOnLine_loop cs l found = true <->
    (forall p, In p cs -> isPointOnLine p l false = true) /\
    (found = true \/ exists p, In p cs /\ isPointOnLine p l true = true).
Proof.
  induction cs as [| c rest IH]; intros found; simpl.
  - split.
    + intros ->. split; [intros p [] | left; reflexivity].
    + intros [_ [E | [p [[] _]]]]; exact E.
  - destruct (isPointOnLine c l false) eqn:On; simpl.
    + rewrite IH. split.
      * intros [Hall Hw]. split.
        -- intros p [<- | Hin]; auto.
        -- destruct found; simpl in Hw; [left; reflexivity | right].
           destruct Hw as [Hc | [p [Hin Hp]]]; [exists c | exists p]; auto.
      * intros [Hall Hw]. split; [intros p Hin; apply Hall; auto |].
        destruct found; simpl; [left; reflexivity |].
        destruct Hw as [Hf | [p [[<- | Hin] Hp]]];
          [discriminate | left; exact Hp | right; exists p; auto].
    + split; [discriminate |].
      intros [Hall _]. rewrite <- On. apply Hall. left. reflexivity.
Qed.

(** Reaching a point that is not on the line ends the loop with [false],
    whatever the flag and whatever follows. *)
Lemma isMultiPointOnLine_loop_stops (l : list Coord) (p : Coord) :
  isPointOnLine p l false = false ->
  forall (post : list Coord) (found : bool),
    isMultiPointOnLine_loop (p :: post) l found = false.
Proof. intros Off post found. simpl. rewrite Off. reflexivity. Qed.

Lemma isMultiPointOnLine_loop_app_stops (l : list Coord) (p : Coord) :
  isPointOnLine p l false = false ->
  forall (pre post : list Coord) (found : bool),
    isMultiPointOnLine_loop (pre ++ p :: post) l found = false.
Proof.
  intros Off. induction pre as [| c pre IH]; intros post found.
  - apply isMultiPointOnLine_loop_stops. exact Off.
  - simpl. destruct (isPointOnLine c l false); simpl; [apply IH | reflexivity].
Qed.

End MultiPointOnLine.

(** C7: a MultiPoint is within a LineString iff every one of its points is
    on the line under the boundary-inclusive test and at least one is on it
    under the boundary-excluding test; and the answer is [false] as soon as
    the scan meets a point that is not on the line: what comes after that
    point does not matter. *)
Theorem multipoint_within_line_iff `{Imports} :
  forall (f1 f2 : GeoJSON) (m l : list Coord),
    getGeom f1 = MultiPoint m ->
    getGeom f2 = LineString l ->
    (exists b, booleanWithin f1 f2 = Return (VBool b)) /\
    (booleanWithin f1 f2 = Return (VBool true) <->
     (forall p, In p m -> isPointOnLine p l false = true) /\
     (exists p, In p m /\ isPointOnLine p l true = true)) /\
    (forall pre p post,
        m = pre ++ p :: post ->
        isPointOnLine p l false = false ->
        booleanWithin f1 f2 = Return (VBool false) /\
        forall post' found,
          isMultiPointOnLine_loop (p :: post') l found = false).
Proof.
  intros f1 f2 m l H1 H2. dispatch. split; [eauto | split].
  - unfold isMultiPointOnLine. split.
    + intros E. injection E as E. apply isMultiPointOnLine_loop_iff in E.
      destruct E as [Hall [Hf | Hw]]; [discriminate | auto].
    + intros [Hall Hw]. do 2 f_equal. apply isMultiPointOnLine_loop_iff. auto.
  - intros pre p post -> Off. split.
    + unfold isMultiPointOnLine.
      rewrite isMultiPointOnLine_loop_app_stops by exact Off. reflexivity.
    + intros post' found. apply isMultiPointOnLine_loop_stops. exact Off.
Qed.

Lemma multipoint_within_line_iff_witness :
  @booleanWithin SpecModel.imports
    (Geom (MultiPoint [(1, 1); (1, 2)]%float))
    (Geom (LineString [(1, 1); (1, 2); (1, 3); (1, 4)]%float))
  = Return (VBool true) /\
  @booleanWithin SpecModel.imports
    (Geom (MultiPoint [(1, 2); (7, 7); (1, 3)]%float))
    (Geom (LineString [(1, 1); (1, 2); (1, 3); (1, 4)]%float))
  = Return (VBool false).
Proof.
  split.
  - apply (@multipoint_within_line_iff SpecModel.imports
             (Geom (MultiPoint [(1, 1); (1, 2)]%float))
             (Geom (LineString [(1, 1); (1, 2); (1, 3); (1, 4)]%float))
             [(1, 1); (1, 2)]%float [(1, 1); (1, 2); (1, 3); (1, 4)]%float
             eq_refl eq_refl).
    split.
    + intros p [<- | [<- | []]]; vm_compute; reflexivity.
    + exists (1, 2)%float. split; [right; left; reflexivity |].
      vm_compute; reflexivity.
  - apply (proj2 (proj2 (@multipoint_within_line_iff SpecModel.imports
             (Geom (MultiPoint [(1, 2); (7, 7); (1, 3)]%float))
             (Geom (LineString [(1, 1); (1, 2); (1, 3); (1, 4)]%float))
             [(1, 2); (7, 7); (1, 3)]%float
             [(1, 1); (1, 2); (1, 3); (1, 4)]%float eq_refl eq_refl))
             [(1, 2)]%float (7, 7)%float [(1, 3)]%float eq_refl).
    vm_compute; reflexivity.
Defined.


(** *** Point on LineString *)

(** C10: for a Point and a LineString the dispatcher returns the
    point-on-line test with the boundary excluded, and nothing else: a point
    that the boundary-inclusive test accepts but the boundary-excluding test
    rejects (an endpoint of the line) is not within the line. *)
Theorem point_within_line_excludes_boundary `{Imports} :
  forall (f1 f2 : GeoJSON) (p : Coord) (l : list Coord),
    getGeom f1 = Point p ->
    getGeom f2 = LineString l ->
    booleanWithin f1 f2 = Return (VBool (isPointOnLine p l true)) /\
    (isPointOnLine p l false = true ->
     isPointOnLine p l true = false ->
     booleanWithin f1 f2 = Return (VBool false)).
Proof.
  intros f1 f2 p l H1 H2. dispatch. split; [reflexivity |].
  intros _ ->. reflexivity.
Qed.

(** The first coordinate of the documentation line is on the line and is
    not within it; its second coordinate is within it. *)
Lemma point_within_line_excludes_boundary_witness :
  @booleanWithin SpecModel.imports (Geom (Point (1, 1)%float))
                 (Feature (LineString docLine)) = Return (VBool false) /\
  @booleanWithin SpecModel.imports (Geom (Point (1, 2)%float))
                 (Feature (LineString docLine)) = Return (VBool true).
Proof.
  split.
  - apply (proj2 (@point_within_line_excludes_boundary SpecModel.imports
                    (Geom (Point (1, 1)%float)) (Feature (LineString docLine))
                    (1, 1)%float docLine eq_refl eq_refl));
      vm_compute; reflexivity.
  - rewrite (proj1 (@point_within_line_excludes_boundary SpecModel.imports
                      (Geom (Point (1, 2)%float)) (Feature (LineString docLine))
                      (1, 2)%float docLine eq_refl eq_refl)).
    vm_compute; reflexivity.
Defined.

(** *** LineString on LineString *)

Lemma isLineOnLine_iff `{Imports} (l2 : list Coord) :
  forall l1 : list Coord,
    isLineOnLine l1 l2 = true <->
    forall v, In v l1 -> isPointOnLine v l2 false = true.
Proof.
  induction l1 as [| c rest IH]; simpl.
  - split; [intros _ v [] | reflexivity].
  - destruct (isPointOnLine c l2 false) eqn:On; simpl.
    + rewrite IH. split.
      * intros Hall v [<- | Hin]; auto.
      * intros Hall v Hin. apply Hall. right. exact Hin.
    + split; [discriminate |].
      intros Hall. rewrite <- On. apply Hall. left. reflexivity.
Qed.




(** *** LineString in Polygon *)

Section LineInPoly.
Context {imports : Imports}.

(** One turn of the loop of [isLineInPoly], on a coordinate that has a
    successor. *)
Lemma isLineInPoly_loop_step (c next : Coord) (rest : list Coord)
      (polygon : Rings) (found : bool) :
  isLineInPoly_loop (c :: next :: rest) polygon found =
  if inside c polygon false
  then isLineInPoly_loop (next :: rest) polygon
         (found || inside c polygon true
          || inside (getMidpoint c next) polygon true)
  else false.
Proof.
  cbn [isLineInPoly_loop].
  destruct (inside c polygon false); [| reflexivity].
  destruct found; [reflexivity |].
  cbn [negb orb]. destruct (inside c polygon true); reflexivity.
Qed.

Lemma isLineInPoly_loop_iff (polygon : Rings) :
  forall (cs : list Coord) (found : bool),
    isLineInPoly_loop cs polygon found = true <->
    (forall v, In v (removelast cs) -> inside v polygon false = true) /\
    (found = true \/ interiorWitness cs polygon).
Proof.
  unfold interiorWitness.
  induction cs as [| c rest IH]; intros found.
  - simpl. split.
    + intros ->. split; [intros v [] | left; reflexivity].
    + intros [_ [E | (a & b & [] & _)]]. exact E.
  - destruct rest as [| next rest].
    + simpl. split.
      * intros ->. split; [intros v [] | left; reflexivity].
      * intros [_ [E | (a & b & [] & _)]]. exact E.
    + rewrite isLineInPoly_loop_step.
      change (removelast (c :: next :: rest))
        with (c :: removelast (next :: rest)).
      change (segments (c :: next :: rest))
        with ((c, next) :: segments (next :: rest)).
      destruct (inside c polygon false) eqn:In0.
      * rewrite IH. split.
        -- intros [Hall Hw]. split.
           ++ intros v [<- | Hin]; auto.
           ++ destruct found; [left; reflexivity | right].
              destruct Hw as [Hor | (a & b & Hin & Hab)].
              ** exists c, next. split; [left; reflexivity |].
                 apply orb_true_iff in Hor. exact Hor.
              ** exists a, b. split; [right; exact Hin | exact Hab].
        -- intros [Hall Hw]. split.
           ++ intros v Hin. apply Hall. right. exact Hin.
           ++ destruct found; [left; reflexivity |].
              destruct Hw as [Hf | (a & b & [E | Hin] & Hab)].
              ** discriminate.
              ** injection E as <- <-. left. apply orb_true_iff. exact Hab.
              ** right. exists a, b. auto.
      * split; [discriminate |].
        intros [Hall _]. rewrite <- In0. apply Hall. left. reflexivity.
Qed.

Lemma segments_vertex (a b : Coord) :
  forall cs, In (a, b) (segments cs) -> In a cs.
Proof.
  induction cs as [| c rest IH]; [intros [] |].
  destruct rest as [| next rest]; [intros [] |].
  change (segments (c :: next :: rest))
    with ((c, next) :: segments (next :: rest)).
  intros [E | Hin]; [injection E as <- _; left; reflexivity |].
  right. apply IH. exact Hin.
Qed.

End LineInPoly.

(** C2: a LineString is within a Polygon only if every vertex but the last
    is inside or on the polygon and some vertex of the line, or the midpoint
    of some segment of it, is strictly interior; so a line none of whose
    vertices and segment midpoints is strictly interior is not within the
    polygon. *)
Theorem linestring_within_polygon_only_if `{Imports} :
  forall (f1 f2 : GeoJSON) (l : list Coord) (polygon : Rings),
    getGeom f1 = LineString l ->
    getGeom f2 = Polygon polygon ->
    (exists b, booleanWithin f1 f2 = Return (VBool b)) /\
    (booleanWithin f1 f2 = Return (VBool true) ->
     (forall v, In v (removelast l) -> inside v polygon false = true) /\
     ((exists v, In v l /\ inside v polygon true = true) \/
      (exists a b, In (a, b) (segments l) /\
                   inside (getMidpoint a b) polygon true = true))) /\
    ((forall v, In v l -> inside v polygon true = false) ->
     (forall a b, In (a, b) (segments l) ->
                  inside (getMidpoint a b) polygon true = false) ->
     booleanWithin f1 f2 = Return (VBool false)).
Proof.
  intros f1 f2 l polygon H1 H2. dispatch.
  assert (Only : isLineInPoly l polygon = true ->
                 (forall v, In v (removelast l) -> inside v polygon false = true) /\
                 ((exists v, In v l /\ inside v polygon true = true) \/
                  (exists a b, In (a, b) (segments l) /\
                               inside (getMidpoint a b) polygon true = true))).
  { unfold isLineInPoly.
    destruct (doBBoxOverlap _ _); cbn [negb]; [| discriminate].
    intros E. apply isLineInPoly_loop_iff in E.
    destruct E as [Hall [Hf | (a & b & Hin & [Ha | Hm])]].
    - discriminate.
    - split; [exact Hall | left]. exists a. split; [| exact Ha].
      apply (segments_vertex _ _ _ Hin).
    - split; [exact Hall | right]. exists a, b. auto. }
  split; [eauto | split].
  - intros E. injection E as E. apply Only. exact E.
  - intros Hv Hm. destruct (isLineInPoly l polygon) eqn:E; [| reflexivity].
    destruct (Only eq_refl) as [_ [(v & Hin & Hs) | (a & b & Hin & Hs)]].
    + rewrite (Hv v Hin) in Hs. discriminate.
    + rewrite (Hm a b Hin) in Hs. discriminate.
Qed.

(** The diagonal of the square is within it (its midpoint is interior); the
    left edge of the square touches it only along the boundary and is not. *)
Lemma linestring_within_polygon_only_if_witness :
  ((forall v, In v (removelast [(0, 0); (10, 10)]%float) ->
              SpecModel.inside v square false = true) /\
   ((exists v, In v [(0, 0); (10, 10)]%float /\
               SpecModel.inside v square true = true) \/
    (exists a b, In (a, b) (segments [(0, 0); (10, 10)]%float) /\
                 SpecModel.inside (getMidpoint a b) square true = true))) /\
  @booleanWithin SpecModel.imports (Geom (LineString [(0, 0); (0, 10)]%float))
                 (Geom (Polygon square)) = Return (VBool false).
Proof.
  split.
  - apply (proj1 (proj2 (@linestring_within_polygon_only_if SpecModel.imports
                           (Geom (LineString [(0, 0); (10, 10)]%float))
                           (Geom (Polygon square))
                           [(0, 0); (10, 10)]%float square eq_refl eq_refl))).
    vm_compute; reflexivity.
  - apply (proj2 (proj2 (@linestring_within_polygon_only_if SpecModel.imports
                           (Geom (LineString [(0, 0); (0, 10)]%float))
                           (Geom (Polygon square))
                           [(0, 0); (0, 10)]%float square eq_refl eq_refl))).
    + intros v [<- | [<- | []]]; vm_compute; reflexivity.
    + intros a b [E | []]. injection E as <- <-. vm_compute; reflexivity.
Defined.

(** *** Polygon in Polygon *)

Lemma isPolyInPoly_loop_iff `{Imports} (feature2 : Rings) :
  forall ring : list Coord,
    isPolyInPoly_loop ring feature2 = true <->
    forall v, In v ring -> inside v feature2 false = true.
Proof.
  induction ring as [| c rest IH]; simpl.
  - split; [intros _ v [] | reflexivity].
  - destruct (inside c feature2 false) eqn:In0; simpl.
    + rewrite IH. split.
      * intros Hall v [<- | Hin]; auto.
      * intros Hall v Hin. apply Hall. right. exact Hin.
    + split; [discriminate |].
      intros Hall. rewrite <- In0. apply Hall. left. reflexivity.
Qed.




(** *** Unsupported pairs *)

Lemma typeName_supported (g : Geometry) :
  In (typeName g) supportedTypes <->
  match g with
  | Point _ | MultiPoint _ | LineString _ | Polygon _ => True
  | _ => False
  end.
Proof.
  destruct g; simpl; split; try tauto;
    intros [E | [E | [E | [E | []]]]]; discriminate.
Qed.

(** C4: when the ordered pair of type names is not in the dispatch table,
    [booleanWithin] throws an error whose message names the argument and
    the type name at fault (the first argument when its type is not one of
    the four supported types, the second otherwise), and it does not return
    [false]. *)
Theorem unsupported_pair_throws `{Imports} :
  forall f1 f2 : GeoJSON,
    ~ In (getType f1, getType f2) supportedPairs ->
    (exists which type,
        booleanWithin f1 f2
        = Throw (Error (which ++ " " ++ type ++ " geometry not supported")) /\
        ((which = "feature1"%string /\ type = getType f1 /\
          ~ In (getType f1) supportedTypes) \/
         (which = "feature2"%string /\ type = getType f2 /\
          In (getType f1) supportedTypes))) /\
    booleanWithin f1 f2 <> Return (VBool false).
Proof.
  intros f1 f2 Hpair.
  assert (Hgeom : booleanWithin f1 f2
                  = booleanWithin (Geom (getGeom f1)) (Geom (getGeom f2)))
    by reflexivity.
  unfold getType in *. rewrite Hgeom. clear Hgeom.
  pose proof (typeName_supported (getGeom f1)) as Hsup.
  destruct (getGeom f1) as [p1 | m1 | l1 | ml1 | a1 | mp1 | gc1],
           (getGeom f2) as [p2 | m2 | l2 | ml2 | a2 | mp2 | gc2];
    try (exfalso; apply Hpair; simpl; tauto);
    (split; [| discriminate]);
    first
      [ eexists "feature2"%string, _;
        split; [reflexivity | right; repeat split; apply Hsup; exact I]
      | eexists "feature1"%string, _;
        split; [reflexivity | left; repeat split; rewrite Hsup; tauto] ].
Qed.

Lemma unsupported_pair_throws_witness :
  @booleanWithin SpecModel.imports (Geom (MultiPolygon [square]))
                 (Geom (Polygon square))
  <> Return (VBool false) /\
  exists which type,
    @booleanWithin SpecModel.imports (Geom (LineString docLine))
                   (Feature (Point (1, 2)%float))
    = Throw (Error (which ++ " " ++ type ++ " geometry not supported")) /\
    ((which = "feature1"%string /\ type = "LineString"%string /\
      ~ In "LineString"%string supportedTypes) \/
     (which = "feature2"%string /\ type = "Point"%string /\
      In "LineString"%string supportedTypes)).
Proof.
  split.
  - apply (@unsupported_pair_throws SpecModel.imports
             (Geom (MultiPolygon [square])) (Geom (Polygon square))).
    simpl. intuition discriminate.
  - apply (@unsupported_pair_throws SpecModel.imports
             (Geom (LineString docLine)) (Feature (Point (1, 2)%float))).
    simpl. intuition discriminate.
Defined.

(** *** MultiPoint in Polygon *)

Section MultiPointInPoly.
Context {imports : Imports}.

(** With a second coordinate [q] present, every turn of the loop tests [q]:
    after at least one turn, [output] is the boundary-inclusive test of [q]
    and [isInside] its boundary-excluding test. *)
Lemma isMultiPointInPoly_loop_index_1 (coordinates : list Coord)
      (polygon : Rings) (q : Coord) :
  nth_error coordinates 1 = Some q ->
  forall (remaining : list Coord) (isInside : value),
    remaining <> [] ->
    isMultiPointInPoly_loop remaining coordinates polygon false isInside
    = Return (if inside q polygon false
              then (true, VBool (inside q polygon true))
              else (false, VBool false)).
Proof.
  intros Hq. induction remaining as [| c rest IH]; intros isInside Hne.
  - contradiction.
  - cbn [isMultiPointInPoly_loop]. rewrite Hq. cbn [inside_at bind negb].
    destruct (inside q polygon false) eqn:In0; cbn [negb]; [| reflexivity].
    destruct rest as [| c' rest'].
    + reflexivity.
    + rewrite IH by discriminate. reflexivity.
Qed.

Lemma isMultiPointInPoly_index_1 (a q : Coord) (rest : list Coord)
      (polygon : Rings) :
  isMultiPointInPoly (a :: q :: rest) polygon
  = Return (VBool (inside q polygon false && inside q polygon true)).
Proof.
  unfold isMultiPointInPoly.
  rewrite (@isMultiPointInPoly_loop_index_1 (a :: q :: rest) polygon q eq_refl)
    by discriminate.
  destruct (inside q polygon false); reflexivity.
Qed.

(** With no coordinate the loop never runs and [isInside] is never
    assigned: the function returns [undefined]. *)
Lemma isMultiPointInPoly_empty (polygon : Rings) :
  isMultiPointInPoly [] polygon = Return VUndefined.
Proof. reflexivity. Qed.

(** With one coordinate, [coordinates[1]] is [undefined] and the answer is
    whatever [inside] makes of that. *)
Lemma isMultiPointInPoly_single (a : Coord) (polygon : Rings) :
  isMultiPointInPoly [a] polygon
  = (isInside <- inside_undefined polygon false ;;
     if isInside
     then isInside <- inside_undefined polygon true ;; Return (VBool isInside)
     else Return (VBool false)).
Proof.
  unfold isMultiPointInPoly. cbn [isMultiPointInPoly_loop nth_error inside_at].
  destruct (inside_undefined polygon false) as [[|] | e]; cbn [bind negb];
    [| reflexivity | reflexivity].
  destruct (inside_undefined polygon true) as [b | e]; reflexivity.
Qed.

End MultiPointInPoly.

(** C1, where the code departs from it: [isMultiPointInPoly] tests
    [coordinates[1]] on every turn of its loop, so with two or more points
    the answer is decided by the second point alone.  The MultiPoint
    [(20,20), (5,5)] is reported within the square although (20,20) is
    outside it; tested point by point, as the specification asks, it is
    not within. *)
Theorem multipoint_within_polygon_tests_index_1 :
  (forall (imports : Imports) (f1 f2 : GeoJSON) (a q : Coord)
          (rest : list Coord) (polygon : Rings),
      getGeom f1 = MultiPoint (a :: q :: rest) ->
      getGeom f2 = Polygon polygon ->
      booleanWithin f1 f2
      = Return (VBool (inside q polygon false && inside q polygon true))) /\
  @booleanWithin SpecModel.imports
    (Geom (MultiPoint [(20, 20); (5, 5)]%float)) (Geom (Polygon square))
  = Return (VBool true) /\
  SpecModel.inside (20, 20)%float square false = false /\
  @isMultiPointInPoly_spec SpecModel.imports
    [(20, 20); (5, 5)]%float square = false.
Proof.
  split; [| split; [| split]]; try (vm_compute; reflexivity).
  intros imports f1 f2 a q rest polygon H1 H2. dispatch.
  apply isMultiPointInPoly_index_1.
Qed.

(** ** Further properties of the predicates *)

(** *** The order and equality of numbers *)

Lemma eqb_sym (x y : float) : PrimFloat.eqb x y = PrimFloat.eqb y x.
Proof.
  rewrite !FloatAxioms.eqb_spec. unfold SFeqb.
  rewrite (SFcompare_antisym (Prim2SF y) (Prim2SF x)).
  destruct (SFcompare (Prim2SF y) (Prim2SF x)) as [[| |] |]; reflexivity.
Qed.

(** Two values that compare at all are both comparable to themselves. *)
Lemma SFcompare_some_refl (x y : spec_float) (c : comparison) :
  SFcompare x y = Some c -> SFcompare x x = Some Eq /\ SFcompare y y = Some Eq.
Proof.
  intros Hc.
  destruct (SFcompare_refl x) as [Hx | Hx], (SFcompare_refl y) as [Hy | Hy];
    auto; exfalso;
    destruct x as [sx | sx | | sx mx ex], y as [sy | sy | | sy my ey];
    try destruct sx; try destruct sy; simpl in *; try discriminate;
    rewrite ?Z.compare_refl in *;
    try change (Pos.compare_cont Eq mx mx) with (Pos.compare mx mx) in *;
    try change (Pos.compare_cont Eq my my) with (Pos.compare my my) in *;
    rewrite ?Pos.compare_refl in *; discriminate.
Qed.

Lemma eqb_true_numbers (x y : float) :
  PrimFloat.eqb x y = true -> isNumber x = true /\ isNumber y = true.
Proof.
  unfold isNumber. rewrite !FloatAxioms.eqb_spec. unfold SFeqb.
  destruct (SFcompare (Prim2SF x) (Prim2SF y)) as [c |] eqn:Hc; [| discriminate].
  intros _. destruct (@SFcompare_some_refl _ _ _ Hc) as [-> ->]. auto.
Qed.

Lemma ltb_true_numbers (x y : float) :
  PrimFloat.ltb x y = true -> isNumber x = true /\ isNumber y = true.
Proof.
  unfold isNumber. rewrite ltb_spec, !FloatAxioms.eqb_spec. unfold SFltb, SFeqb.
  destruct (SFcompare (Prim2SF x) (Prim2SF y)) as [c |] eqn:Hc; [| discriminate].
  intros _. destruct (@SFcompare_some_refl _ _ _ Hc) as [-> ->]. auto.
Qed.

Ltac cmp_cases :=
  repeat match goal with
         | H : context [(?a ?= ?b)%Z] |- _ => destruct (Z.compare_spec a b)
         | |- context [(?a ?= ?b)%Z] => destruct (Z.compare_spec a b)
         | H : context [Pos.compare_cont Eq ?a ?b] |- _ =>
             change (Pos.compare_cont Eq a b) with (Pos.compare a b) in H
         | |- context [Pos.compare_cont Eq ?a ?b] =>
             change (Pos.compare_cont Eq a b) with (Pos.compare a b)
         | H : context [(?a ?= ?b)%positive] |- _ =>
             destruct (Pos.compare_spec a b)
         | |- context [(?a ?= ?b)%positive] => destruct (Pos.compare_spec a b)
         end.

(** Chaining two comparisons, neither of which says "greater". *)
Lemma SFcompare_trans (x y z : spec_float) (c1 c2 : comparison) :
  SFcompare x y = Some c1 -> SFcompare y z = Some c2 ->
  c1 <> Gt -> c2 <> Gt ->
  SFcompare x z = Some (match c1 with Eq => c2 | _ => Lt end).
Proof.
  destruct x as [sx | sx | | sx mx ex], y as [sy | sy | | sy my ey],
           z as [sz | sz | | sz mz ez];
    try destruct sx; try destruct sy; try destruct sz;
    simpl; intros H1 H2 N1 N2;
    try discriminate;
    try (injection H1 as <-); try (injection H2 as <-);
    try congruence;
    cmp_cases; simpl in *; subst; try congruence; try lia.
Qed.

Lemma eqb_trans (x y z : float) :
  PrimFloat.eqb x y = true -> PrimFloat.eqb y z = true ->
  PrimFloat.eqb x z = true.
Proof.
  rewrite !FloatAxioms.eqb_spec. unfold SFeqb.
  destruct (SFcompare (Prim2SF x) (Prim2SF y)) as [[| |] |] eqn:H1;
    try discriminate.
  destruct (SFcompare (Prim2SF y) (Prim2SF z)) as [[| |] |] eqn:H2;
    try discriminate.
  intros _ _. rewrite (@SFcompare_trans _ _ _ _ _ H1 H2); [reflexivity | |];
    discriminate.
Qed.

(** With a number in the middle, [not (y < x)] and [not (z < y)] give
    [not (z < x)]. *)
Lemma ltb_false_trans (x y z : float) :
  isNumber y = true ->
  PrimFloat.ltb y x = false -> PrimFloat.ltb z y = false ->
  PrimFloat.ltb z x = false.
Proof.
  intros Ny Hyx Hzy.
  destruct (PrimFloat.ltb z x) eqn:Hzx; [exfalso | reflexivity].
  destruct (@ltb_true_numbers _ _ Hzx) as [Nz Nx].
  destruct (compare_defined Nx Ny) as [c1 H1].
  destruct (compare_defined Ny Nz) as [c2 H2].
  rewrite ltb_spec in Hyx, Hzy, Hzx. unfold SFltb in *.
  rewrite (SFcompare_antisym (Prim2SF x) (Prim2SF y)), H1 in Hyx.
  rewrite (SFcompare_antisym (Prim2SF y) (Prim2SF z)), H2 in Hzy.
  assert (N1 : c1 <> Gt) by (destruct c1; simpl in Hyx; congruence).
  assert (N2 : c2 <> Gt) by (destruct c2; simpl in Hzy; congruence).
  rewrite (SFcompare_antisym (Prim2SF x) (Prim2SF z)),
          (@SFcompare_trans _ _ _ _ _ H1 H2 N1 N2) in Hzx.
  destruct c1, c2; simpl in Hzx; congruence.
Qed.

(** Between numbers, neither below the other means [===]. *)
Lemma ltb_false_both_eqb (x y : float) :
  isNumber x = true -> isNumber y = true ->
  PrimFloat.ltb x y = false -> PrimFloat.ltb y x = false ->
  PrimFloat.eqb x y = true.
Proof.
  intros Nx Ny Hxy Hyx. destruct (compare_defined Nx Ny) as [c Hc].
  rewrite ltb_spec in Hxy, Hyx. rewrite FloatAxioms.eqb_spec.
  unfold SFltb, SFeqb in *.
  rewrite (SFcompare_antisym (Prim2SF x) (Prim2SF y)) in Hyx.
  rewrite Hc in *. destruct c; simpl in *; congruence.
Qed.

Lemma SFadd_comm (x y : spec_float) :
  SFadd prec emax x y = SFadd prec emax y x.
Proof.
  destruct x as [sx | sx | | sx mx ex], y as [sy | sy | | sy my ey];
    try reflexivity;
    try (destruct sx, sy; reflexivity).
  cbn [SFadd]. rewrite (Z.min_comm ey ex). f_equal. apply Z.add_comm.
Qed.

Lemma add_comm (x y : float) : PrimFloat.add x y = PrimFloat.add y x.
Proof.
  rewrite <- (SF2Prim_Prim2SF (PrimFloat.add x y)),
          <- (SF2Prim_Prim2SF (PrimFloat.add y x)).
  rewrite !add_spec. unfold SF64add. rewrite SFadd_comm. reflexivity.
Qed.

(** *** Matching coordinates *)

Lemma compareCoords_sym (pair1 pair2 : Coord) :
  compareCoords pair1 pair2 = compareCoords pair2 pair1.
Proof.
  unfold compareCoords.
  rewrite (eqb_sym (fst pair1)), (eqb_sym (snd pair1)). reflexivity.
Qed.

Lemma compareCoords_trans (p q r : Coord) :
  compareCoords p q = true -> compareCoords q r = true ->
  compareCoords p r = true.
Proof.
  unfold compareCoords. rewrite !andb_true_iff.
  intros [H1 H2] [H3 H4]. split; eapply eqb_trans; eassumption.
Qed.

Lemma compareCoords_numeric (p q : Coord) :
  compareCoords p q = true -> numericCoord p = true /\ numericCoord q = true.
Proof.
  unfold compareCoords, numericCoord. rewrite !andb_true_iff.
  intros [H1 H2].
  destruct (@eqb_true_numbers _ _ H1), (@eqb_true_numbers _ _ H2). auto.
Qed.

Lemma anyMatch_existsb (c1 : Coord) (multiPoint2 : list Coord) :
  anyMatch c1 multiPoint2 = existsb (compareCoords c1) multiPoint2.
Proof.
  unfold anyMatch.
  assert (G : forall acc,
             fold_left (fun anyMatch c2 =>
                          if compareCoords c1 c2 then true else anyMatch)
                       multiPoint2 acc
             = acc || existsb (compareCoords c1) multiPoint2).
  { induction multiPoint2 as [| c2 rest IH]; intros acc; simpl.
    - rewrite orb_false_r. reflexivity.
    - rewrite IH. destruct (compareCoords c1 c2), acc; reflexivity. }
  apply G.
Qed.

Lemma isMultiPointInMultiPoint_forallb (multiPoint1 multiPoint2 : list Coord) :
  isMultiPointInMultiPoint multiPoint1 multiPoint2
  = forallb (fun c1 => existsb (compareCoords c1) multiPoint2) multiPoint1.
Proof.
  induction multiPoint1 as [| c1 rest IH]; simpl; [reflexivity |].
  rewrite anyMatch_existsb, IH.
  destruct (existsb (compareCoords c1) multiPoint2); reflexivity.
Qed.

Lemma isMultiPointInMultiPoint_iff (multiPoint1 multiPoint2 : list Coord) :
  isMultiPointInMultiPoint multiPoint1 multiPoint2 = true <->
  forall c1, In c1 multiPoint1 ->
             exists c2, In c2 multiPoint2 /\ compareCoords c1 c2 = true.
Proof.
  rewrite isMultiPointInMultiPoint_forallb, forallb_forall.
  split; intros Hall c1 Hin.
  - apply existsb_exists. apply Hall. exact Hin.
  - apply existsb_exists. apply Hall. exact Hin.
Qed.

Lemma isPointInMultiPoint_existsb (point : Coord) (multiPoint : list Coord) :
  isPointInMultiPoint point multiPoint
  = existsb (fun c => compareCoords c point) multiPoint.
Proof.
  induction multiPoint as [| c rest IH]; simpl; [reflexivity |].
  rewrite IH. destruct (compareCoords c point); reflexivity.
Qed.

Lemma bool_eq_of_iff (a b : bool) : (a = true <-> b = true) -> a = b.
Proof. destruct a, b; intuition congruence. Qed.

(** *** MultiPoint in MultiPoint *)

(** X1: a MultiPoint is within a MultiPoint iff each of its coordinates
    matches, component by component under [===], some coordinate of the
    second; the call always returns a boolean. *)
Theorem multipoint_within_multipoint_iff `{Imports} :
  forall (f1 f2 : GeoJSON) (m1 m2 : list Coord),
    getGeom f1 = MultiPoint m1 ->
    getGeom f2 = MultiPoint m2 ->
    (exists b, booleanWithin f1 f2 = Return (VBool b)) /\
    (booleanWithin f1 f2 = Return (VBool true) <->
     forall c1, In c1 m1 ->
                exists c2, In c2 m2 /\
                           PrimFloat.eqb (fst c1) (fst c2) = true /\
                           PrimFloat.eqb (snd c1) (snd c2) = true).
Proof.
  intros f1 f2 m1 m2 H1 H2. dispatch. split; [eauto |].
  split.
  - intros E. injection E as E. intros c1 Hin.
    destruct (proj1 (isMultiPointInMultiPoint_iff m1 m2) E c1 Hin)
      as [c2 [Hin2 Hc]].
    exists c2. split; [exact Hin2 |]. apply andb_true_iff. exact Hc.
  - intros Hall. do 2 f_equal. apply isMultiPointInMultiPoint_iff.
    intros c1 Hin. destruct (Hall c1 Hin) as [c2 [Hin2 Hc]].
    exists c2. split; [exact Hin2 |]. apply andb_true_iff. exact Hc.
Qed.

Lemma multipoint_within_multipoint_iff_witness :
  @booleanWithin SpecModel.imports
    (Geom (MultiPoint [(1, 2); (1, 2); (3, 4)]%float))
    (Feature (MultiPoint [(3, 4); (0, 0); (1, 2)]%float))
  = Return (VBool true).
Proof.
  apply (@multipoint_within_multipoint_iff SpecModel.imports
           (Geom (MultiPoint [(1, 2); (1, 2); (3, 4)]%float))
           (Feature (MultiPoint [(3, 4); (0, 0); (1, 2)]%float))
           [(1, 2); (1, 2); (3, 4)]%float [(3, 4); (0, 0); (1, 2)]%float
           eq_refl eq_refl).
  intros c1 [<- | [<- | [<- | []]]].
  - exists (1, 2)%float. simpl. auto.
  - exists (1, 2)%float. simpl. auto.
  - exists (3, 4)%float. simpl. auto.
Defined.

(** X2: a Point is within a MultiPoint exactly as the MultiPoint made of
    that one point is: the scan that breaks at the first match and the scan
    without a break agree, and [===] does not depend on the order of its
    operands. *)
Theorem point_within_multipoint_as_singleton `{Imports} :
  forall (f1 f1' f2 : GeoJSON) (p : Coord) (m : list Coord),
    getGeom f1 = Point p ->
    getGeom f1' = MultiPoint [p] ->
    getGeom f2 = MultiPoint m ->
    booleanWithin f1 f2 = booleanWithin f1' f2.
Proof.
  intros f1 f1' f2 p m H1 H1' H2. dispatch. do 2 f_equal.
  rewrite isPointInMultiPoint_existsb, isMultiPointInMultiPoint_forallb.
  cbn [forallb]. rewrite andb_true_r.
  induction m as [| c rest IH]; simpl; [reflexivity |].
  rewrite IH, (compareCoords_sym c p). reflexivity.
Qed.

Lemma point_within_multipoint_as_singleton_witness :
  @booleanWithin SpecModel.imports
    (Geom (Point (3, 4)%float)) (Geom (MultiPoint [(0, 0); (3, 4)]%float))
  = @booleanWithin SpecModel.imports
      (Feature (MultiPoint [(3, 4)]%float))
      (Geom (MultiPoint [(0, 0); (3, 4)]%float)).
Proof.
  apply (@point_within_multipoint_as_singleton SpecModel.imports
           (Geom (Point (3, 4)%float)) (Feature (MultiPoint [(3, 4)]%float))
           (Geom (MultiPoint [(0, 0); (3, 4)]%float))
           (3, 4)%float [(0, 0); (3, 4)]%float eq_refl eq_refl eq_refl).
Defined.

(** X3: a MultiPoint is within itself exactly when none of its coordinates
    has a NaN component: a position with a NaN matches nothing, itself
    included. *)
Theorem multipoint_within_itself `{Imports} :
  forall m : list Coord,
    booleanWithin (Geom (MultiPoint m)) (Geom (MultiPoint m))
    = Return (VBool (forallb numericCoord m)).
Proof.
  intros m. unfold booleanWithin. cbn [getGeom]. do 2 f_equal.
  apply bool_eq_of_iff.
  rewrite isMultiPointInMultiPoint_iff, forallb_forall. split.
  - intros Hall c Hin. destruct (Hall c Hin) as [c2 [_ Hc]].
    apply (compareCoords_numeric _ _ Hc).
  - intros Hall c Hin. exists c. split; [exact Hin |].
    exact (Hall c Hin).
Qed.

(** X4: MultiPoint-in-MultiPoint is transitive. *)
Theorem multipoint_within_multipoint_trans :
  forall a b c : list Coord,
    isMultiPointInMultiPoint a b = true ->
    isMultiPointInMultiPoint b c = true ->
    isMultiPointInMultiPoint a c = true.
Proof.
  intros a b c Hab Hbc.
  rewrite isMultiPointInMultiPoint_iff in *.
  intros c1 Hin1.
  destruct (Hab c1 Hin1) as [c2 [Hin2 H12]].
  destruct (Hbc c2 Hin2) as [c3 [Hin3 H23]].
  exists c3. split; [exact Hin3 |].
  apply (compareCoords_trans _ _ _ H12 H23).
Qed.

Lemma multipoint_within_multipoint_trans_witness :
  isMultiPointInMultiPoint [(1, 2)]%float [(5, 5); (1, 2); (3, 4)]%float = true.
Proof.
  apply (@multipoint_within_multipoint_trans
           [(1, 2)]%float [(3, 4); (1, 2)]%float
           [(5, 5); (1, 2); (3, 4)]%float);
    vm_compute; reflexivity.
Defined.

(** X5: the order of the coordinates of either MultiPoint does not
    matter. *)
Theorem multipoint_within_multipoint_order_insignificant :
  forall m1 m1' m2 m2' : list Coord,
    Permutation m1 m1' ->
    Permutation m2 m2' ->
    isMultiPointInMultiPoint m1 m2 = isMultiPointInMultiPoint m1' m2'.
Proof.
  intros m1 m1' m2 m2' P1 P2. apply bool_eq_of_iff.
  rewrite !isMultiPointInMultiPoint_iff. split; intros Hall c1 Hin.
  - destruct (Hall c1 (Permutation_in _ (Permutation_sym P1) Hin))
      as [c2 [Hin2 Hc]].
    exists c2. split; [apply (Permutation_in _ P2 Hin2) | exact Hc].
  - destruct (Hall c1 (Permutation_in _ P1 Hin)) as [c2 [Hin2 Hc]].
    exists c2. split; [| exact Hc].
    apply (Permutation_in _ (Permutation_sym P2) Hin2).
Qed.

Lemma multipoint_within_multipoint_order_insignificant_witness :
  isMultiPointInMultiPoint [(1, 2); (3, 4)]%float [(3, 4); (0, 0); (1, 2)]%float
  = isMultiPointInMultiPoint (rev [(1, 2); (3, 4)]%float)
                             (rev [(3, 4); (0, 0); (1, 2)]%float).
Proof.
  apply multipoint_within_multipoint_order_insignificant; apply Permutation_rev.
Defined.

(** *** Points and vertices on a LineString *)

Lemma isLineOnLine_forallb `{Imports} (l1 l2 : list Coord) :
  isLineOnLine l1 l2 = forallb (fun c => isPointOnLine c l2 false) l1.
Proof.
  induction l1 as [| c rest IH]; simpl; [reflexivity |].
  rewrite IH. destruct (isPointOnLine c l2 false); reflexivity.
Qed.

(** X6: MultiPoint-on-LineString is LineString-on-LineString of the same
    coordinates together with one point that passes the boundary-excluding
    test. *)
Theorem multipoint_on_line_decomposition `{Imports} :
  forall m l : list Coord,
    isMultiPointOnLine m l
    = isLineOnLine m l && existsb (fun p => isPointOnLine p l true) m.
Proof.
  intros m l. apply bool_eq_of_iff.
  unfold isMultiPointOnLine.
  rewrite isMultiPointOnLine_loop_iff, andb_true_iff, isLineOnLine_iff,
          existsb_exists.
  split.
  - intros [Hall [Hf | Hw]]; [discriminate | auto].
  - intros [Hall Hw]. auto.
Qed.

(** X7: LineString-on-LineString and MultiPoint-on-LineString do not depend
    on the order in which the first geometry lists its coordinates; in
    particular a reversed first LineString gives the same answer. *)
Theorem on_line_order_insignificant `{Imports} :
  forall m m' l : list Coord,
    Permutation m m' ->
    isLineOnLine m l = isLineOnLine m' l /\
    isMultiPointOnLine m l = isMultiPointOnLine m' l.
Proof.
  intros m m' l P.
  assert (L : isLineOnLine m l = isLineOnLine m' l).
  { apply bool_eq_of_iff. rewrite !isLineOnLine_iff.
    split; intros Hall v Hin; apply Hall.
    - apply (Permutation_in _ (Permutation_sym P) Hin).
    - apply (Permutation_in _ P Hin). }
  split; [exact L |].
  apply bool_eq_of_iff. unfold isMultiPointOnLine.
  rewrite !isMultiPointOnLine_loop_iff.
  split; intros [Hall [Hf | [p [Hin Hp]]]]; try discriminate.
  - split; [| right; exists p; split; [apply (Permutation_in _ P Hin) | exact Hp]].
    intros v Hv. apply Hall. apply (Permutation_in _ (Permutation_sym P) Hv).
  - split; [| right; exists p; split;
              [apply (Permutation_in _ (Permutation_sym P) Hin) | exact Hp]].
    intros v Hv. apply Hall. apply (Permutation_in _ P Hv).
Qed.

Lemma on_line_order_insignificant_witness :
  @isLineOnLine SpecModel.imports [(1, 2); (1, 3)]%float docLine
  = @isLineOnLine SpecModel.imports (rev [(1, 2); (1, 3)]%float) docLine /\
  @isMultiPointOnLine SpecModel.imports [(1, 2); (1, 3)]%float docLine
  = @isMultiPointOnLine SpecModel.imports (rev [(1, 2); (1, 3)]%float) docLine.
Proof.
  apply (@on_line_order_insignificant SpecModel.imports
           [(1, 2); (1, 3)]%float (rev [(1, 2); (1, 3)]%float) docLine).
  apply Permutation_rev.
Defined.

(** *** What [booleanWithin] returns and throws *)

Section Outcomes.
Context {imports : Imports}.

(** Once the loop of [isMultiPointInPoly] has run a turn, [isInside] holds
    a boolean. *)
Lemma isMultiPointInPoly_loop_boolean (coordinates : list Coord)
      (polygon : Rings) :
  forall (remaining : list Coord) (isInside : value) (output : bool)
         (final : value),
    remaining <> [] \/ (exists b, isInside = VBool b) ->
    isMultiPointInPoly_loop remaining coordinates polygon false isInside
    = Return (output, final) ->
    exists b, final = VBool b.
Proof.
  induction remaining as [| c rest IH]; intros isInside output final Hor.
  - cbn [isMultiPointInPoly_loop]. intros E. injection E as _ <-.
    destruct Hor as [Hne | Hb]; [contradiction | exact Hb].
  - cbn [isMultiPointInPoly_loop].
    destruct (inside_at (nth_error coordinates 1) polygon false)
      as [[|] | e]; cbn [bind negb].
    + destruct (inside_at (nth_error coordinates 1) polygon true)
        as [b | e]; cbn [bind]; [| discriminate].
      apply IH. right. eauto.
    + intros E. injection E as _ <-. eauto.
    + discriminate.
Qed.

Lemma isMultiPointInPoly_undefined (multiPoint : list Coord) (polygon : Rings) :
  isMultiPointInPoly multiPoint polygon = Return VUndefined ->
  multiPoint = [].
Proof.
  destruct multiPoint as [| c rest]; [reflexivity |].
  unfold isMultiPointInPoly.
  destruct (isMultiPointInPoly_loop (c :: rest) (c :: rest) polygon false
                                    VUndefined) as [[output final] | e] eqn:E;
    cbn [bind]; [| discriminate].
  apply isMultiPointInPoly_loop_boolean in E; [| left; discriminate].
  destruct E as [b ->]. destruct output; discriminate.
Qed.

End Outcomes.

(** X8: [booleanWithin] returns [undefined] instead of a boolean in exactly
    one case: a MultiPoint with no coordinates against a Polygon. *)
Theorem booleanWithin_undefined_iff `{Imports} :
  forall f1 f2 : GeoJSON,
    booleanWithin f1 f2 = Return VUndefined <->
    getGeom f1 = MultiPoint [] /\ exists polygon, getGeom f2 = Polygon polygon.
Proof.
  intros f1 f2. unfold booleanWithin, getType. split.
  - destruct (getGeom f1) as [p1 | m1 | l1 | ml1 | a1 | mp1 | gc1],
             (getGeom f2) as [p2 | m2 | l2 | ml2 | a2 | mp2 | gc2];
      cbn [typeName]; try discriminate.
    + intros E. apply isMultiPointInPoly_undefined in E. subst m1. eauto.
    + destruct (isPolyInPoly a1 a2); discriminate.
  - intros [-> [polygon ->]]. reflexivity.
Qed.

Lemma booleanWithin_undefined_iff_witness :
  @booleanWithin SpecModel.imports (Feature (MultiPoint []))
                 (Geom (Polygon square)) = Return VUndefined.
Proof.
  apply (@booleanWithin_undefined_iff SpecModel.imports
           (Feature (MultiPoint [])) (Geom (Polygon square))).
  split; [reflexivity | exists square; reflexivity].
Defined.

(** Nothing is above [infinity] and nothing is below [neg_infinity]. *)
Lemma ltb_infinity (x : float) : PrimFloat.ltb infinity x = false.
Proof.
  rewrite ltb_spec. change (Prim2SF infinity) with (S754_infinity false).
  unfold SFltb. destruct (Prim2SF x) as [sx | sx | | sx mx ex];
    try destruct sx; reflexivity.
Qed.

Lemma ltb_neg_infinity (x : float) : PrimFloat.ltb x neg_infinity = false.
Proof.
  rewrite ltb_spec. change (Prim2SF neg_infinity) with (S754_infinity true).
  unfold SFltb. destruct (Prim2SF x) as [sx | sx | | sx mx ex];
    try destruct sx; reflexivity.
Qed.

(** The box of a geometry without coordinates passes the test against
    every box. *)
Lemma doBBoxOverlap_empty_box (b : BBox) :
  doBBoxOverlap b (infinity, infinity, neg_infinity, neg_infinity) = true.
Proof.
  unfold doBBoxOverlap. cbn [at0 at1 at2 at3].
  rewrite !ltb_infinity, !ltb_neg_infinity. reflexivity.
Qed.

(** X9: when the first of two Polygons has no ring and the box test lets
    it through, the call throws the TypeError of reading [length] of
    [undefined]; and with the reference bounding box, for which the box of
    a ring-less polygon passes against every box, it throws whatever the
    second Polygon is. *)
Theorem polygon_without_rings_throws :
  (forall (imports : Imports) (f1 f2 : GeoJSON) (B : Rings),
      getGeom f1 = Polygon [] ->
      getGeom f2 = Polygon B ->
      doBBoxOverlap (calcBbox (Polygon B)) (calcBbox (Polygon [])) = true ->
      booleanWithin f1 f2 = Throw TypeError) /\
  (forall (f1 f2 : GeoJSON) (B : Rings),
      getGeom f1 = Polygon [] ->
      getGeom f2 = Polygon B ->
      @booleanWithin SpecModel.imports f1 f2 = Throw TypeError).
Proof.
  assert (G : forall (imports : Imports) (f1 f2 : GeoJSON) (B : Rings),
             getGeom f1 = Polygon [] ->
             getGeom f2 = Polygon B ->
             doBBoxOverlap (calcBbox (Polygon B)) (calcBbox (Polygon [])) = true ->
             booleanWithin f1 f2 = Throw TypeError).
  { intros imports f1 f2 B H1 H2 Hbox. dispatch. unfold isPolyInPoly.
    rewrite Hbox. reflexivity. }
  split; [exact G |].
  intros f1 f2 B H1 H2. apply (G SpecModel.imports f1 f2 B H1 H2).
  change (@calcBbox SpecModel.imports (Polygon []))
    with (infinity, infinity, neg_infinity, neg_infinity).
  apply doBBoxOverlap_empty_box.
Qed.

Lemma polygon_without_rings_throws_witness :
  @booleanWithin SpecModel.imports (Geom (Polygon [])) (Geom (Polygon square))
  = Throw TypeError /\
  @booleanWithin SpecModel.imports (Feature (Polygon [])) (Geom (Polygon ell))
  = Throw TypeError.
Proof.
  split.
  - apply (proj1 polygon_without_rings_throws SpecModel.imports
             (Geom (Polygon [])) (Geom (Polygon square)) square
             eq_refl eq_refl).
    vm_compute. reflexivity.
  - apply (proj2 polygon_without_rings_throws
             (Feature (Polygon [])) (Geom (Polygon ell)) ell
             eq_refl eq_refl).
Defined.

(** X10: for a MultiPoint with a single coordinate against a Polygon the
    coordinate is never looked at: [coordinates[1]] is [undefined], so any
    two such MultiPoints get the same outcome, and when [inside] throws on
    an undefined point the call throws that error. *)
Theorem multipoint_single_point_in_polygon `{Imports} :
  forall (f1 f1' f2 : GeoJSON) (a a' : Coord) (polygon : Rings),
    getGeom f1 = MultiPoint [a] ->
    getGeom f1' = MultiPoint [a'] ->
    getGeom f2 = Polygon polygon ->
    booleanWithin f1 f2 = booleanWithin f1' f2 /\
    (forall e, inside_undefined polygon false = Throw e ->
               booleanWithin f1 f2 = Throw e).
Proof.
  intros f1 f1' f2 a a' polygon H1 H1' H2. dispatch.
  rewrite !isMultiPointInPoly_single. split; [reflexivity |].
  intros e ->. reflexivity.
Qed.

Lemma multipoint_single_point_in_polygon_witness :
  @booleanWithin SpecModel.imports (Geom (MultiPoint [(5, 5)]%float))
                 (Geom (Polygon square))
  = @booleanWithin SpecModel.imports (Geom (MultiPoint [(20, 20)]%float))
                   (Geom (Polygon square)) /\
  @booleanWithin SpecModel.imports (Geom (MultiPoint [(5, 5)]%float))
                 (Geom (Polygon square))
  = Throw (Error "point is required").
Proof.
  pose proof (@multipoint_single_point_in_polygon SpecModel.imports
                (Geom (MultiPoint [(5, 5)]%float))
                (Geom (MultiPoint [(20, 20)]%float))
                (Geom (Polygon square))
                (5, 5)%float (20, 20)%float square eq_refl eq_refl eq_refl)
    as [Hsame Hthrow].
  split; [exact Hsame | apply Hthrow; reflexivity].
Defined.

(** X12: containment is directional in the dispatch itself: when
    [booleanWithin] returns for two geometries of different types, the call
    with the arguments swapped throws, naming its second argument. *)
Theorem booleanWithin_swapped_throws `{Imports} :
  forall (f1 f2 : GeoJSON) (v : value),
    booleanWithin f1 f2 = Return v ->
    getType f1 <> getType f2 ->
    booleanWithin f2 f1
    = Throw (Error ("feature2 " ++ getType f1 ++ " geometry not supported")).
Proof.
  intros f1 f2 v. unfold booleanWithin, getType.
  destruct (getGeom f1) as [p1 | m1 | l1 | ml1 | a1 | mp1 | gc1],
           (getGeom f2) as [p2 | m2 | l2 | ml2 | a2 | mp2 | gc2];
    cbn [typeName]; try discriminate;
    intros _ Hne; try reflexivity; exfalso; apply Hne; reflexivity.
Qed.

Lemma booleanWithin_swapped_throws_witness :
  @booleanWithin SpecModel.imports (Geom (Polygon square))
                 (Geom (Point (5, 5)%float))
  = Throw (Error "feature2 Point geometry not supported").
Proof.
  apply (@booleanWithin_swapped_throws SpecModel.imports
           (Geom (Point (5, 5)%float)) (Geom (Polygon square)) (VBool true)).
  - vm_compute. reflexivity.
  - discriminate.
Defined.

(** *** LineString in Polygon, in full *)

(** X13: a LineString is within a Polygon exactly when the polygon's box
    passes the test against the line's box, every vertex but the last is
    inside or on the polygon, and a vertex that starts a segment, or a
    segment midpoint, is strictly interior. *)
Theorem linestring_within_polygon_iff `{Imports} :
  forall (l : list Coord) (polygon : Rings),
    isLineInPoly l polygon = true <->
    doBBoxOverlap (calcBbox (Polygon polygon)) (calcBbox (LineString l)) = true /\
    (forall v, In v (removelast l) -> inside v polygon false = true) /\
    (exists a b, In (a, b) (segments l) /\
                 (inside a polygon true = true \/
                  inside (getMidpoint a b) polygon true = true)).
Proof.
  intros l polygon. unfold isLineInPoly.
  destruct (doBBoxOverlap _ _); cbn [negb].
  - rewrite isLineInPoly_loop_iff. unfold interiorWitness. split.
    + intros [Hall [Hf | Hw]]; [discriminate | auto].
    + intros (_ & Hall & Hw). auto.
  - split; [discriminate | intros (E & _); discriminate].
Qed.

(** X14: a LineString with fewer than two coordinates is within no
    Polygon: the loop has no segment to run over. *)
Theorem short_linestring_not_within_polygon `{Imports} :
  forall (f1 f2 : GeoJSON) (l : list Coord) (polygon : Rings),
    getGeom f1 = LineString l ->
    getGeom f2 = Polygon polygon ->
    List.length l < 2 ->
    booleanWithin f1 f2 = Return (VBool false).
Proof.
  intros f1 f2 l polygon H1 H2 Hlen. dispatch. do 2 f_equal.
  unfold isLineInPoly. destruct (doBBoxOverlap _ _); cbn [negb]; [| reflexivity].
  destruct l as [| c [| next rest]]; [reflexivity | reflexivity |].
  simpl in Hlen. lia.
Qed.

Lemma short_linestring_not_within_polygon_witness :
  @booleanWithin SpecModel.imports (Geom (LineString [(5, 5)]%float))
                 (Geom (Polygon square)) = Return (VBool false).
Proof.
  apply (@short_linestring_not_within_polygon SpecModel.imports
           (Geom (LineString [(5, 5)]%float)) (Geom (Polygon square))
           [(5, 5)]%float square eq_refl eq_refl).
  simpl. lia.
Defined.

(** X15: the loop of [isLineInPoly] never tests the last vertex of the
    line; that vertex counts only through the midpoint of the last
    segment.  Two lines that differ in their last vertex alone, with
    midpoints of the last segment that the boundary-excluding test treats
    alike, leave the loop with the same answer. *)
Theorem linestring_last_vertex_untested `{Imports} :
  forall (pre : list Coord) (c z z' : Coord) (polygon : Rings),
    inside (getMidpoint c z) polygon true
    = inside (getMidpoint c z') polygon true ->
    forall found : bool,
      isLineInPoly_loop (pre ++ [c; z]) polygon found
      = isLineInPoly_loop (pre ++ [c; z']) polygon found.
Proof.
  intros pre c z z' polygon Hmid.
  induction pre as [| p pre IH]; intros found.
  - cbn [app]. rewrite !isLineInPoly_loop_step, Hmid. reflexivity.
  - destruct pre as [| p' pre'].
    + cbn [app] in *. rewrite (isLineInPoly_loop_step p c [z]),
                              (isLineInPoly_loop_step p c [z']).
      destruct (inside p polygon false); [apply IH | reflexivity].
    + cbn [app] in *.
      rewrite (isLineInPoly_loop_step p p' (pre' ++ [c; z])),
              (isLineInPoly_loop_step p p' (pre' ++ [c; z'])).
      destruct (inside p polygon false); [apply IH | reflexivity].
Qed.

(** In the L-shaped polygon the line from (1,1) to (2,8) ends in the
    notch, outside the polygon, and is still reported within it, as the
    line from (1,1) to (2,2) is. *)
Lemma linestring_last_vertex_untested_witness :
  @isLineInPoly_loop SpecModel.imports ([] ++ [(1, 1); (2, 8)]%float) ell false
  = @isLineInPoly_loop SpecModel.imports ([] ++ [(1, 1); (2, 2)]%float) ell false /\
  SpecModel.inside (2, 8)%float ell false = false /\
  @booleanWithin SpecModel.imports (Geom (LineString [(1, 1); (2, 8)]%float))
                 (Geom (Polygon ell)) = Return (VBool true).
Proof.
  split; [| split; vm_compute; reflexivity].
  apply (@linestring_last_vertex_untested SpecModel.imports
           [] (1, 1)%float (2, 8)%float (2, 2)%float ell).
  vm_compute. reflexivity.
Defined.

(** X16: for a closed ring (its last coordinate is its first), the ring
    read as a LineString being within a Polygon makes the Polygon that has
    this ring as outer boundary within the same Polygon, as long as
    [calcBbox] gives both readings the same box. *)
Theorem closed_line_within_gives_polygon_within `{Imports} :
  forall (a : Coord) (middle : list Coord) (holes polygon : Rings),
    calcBbox (Polygon ((a :: middle ++ [a]) :: holes))
    = calcBbox (LineString (a :: middle ++ [a])) ->
    isLineInPoly (a :: middle ++ [a]) polygon = true ->
    isPolyInPoly ((a :: middle ++ [a]) :: holes) polygon = Return true.
Proof.
  intros a middle holes polygon Hbox Hline.
  unfold isLineInPoly in Hline. unfold isPolyInPoly. rewrite Hbox.
  destruct (doBBoxOverlap _ _); cbn [negb] in *; [| discriminate].
  f_equal. apply isPolyInPoly_loop_iff.
  apply isLineInPoly_loop_iff in Hline. destruct Hline as [Hall _].
  change (a :: middle ++ [a]) with ((a :: middle) ++ [a]) in Hall.
  rewrite removelast_last in Hall.
  intros v [<- | Hin]; [apply Hall; left; reflexivity |].
  apply in_app_or in Hin. destruct Hin as [Hin | [<- | []]].
  - apply Hall. right. exact Hin.
  - apply Hall. left. reflexivity.
Qed.

Lemma closed_line_within_gives_polygon_within_witness :
  @isPolyInPoly SpecModel.imports
    [((1, 1) :: [(1, 2); (2, 2)] ++ [(1, 1)])%float] square = Return true.
Proof.
  apply (@closed_line_within_gives_polygon_within SpecModel.imports
           (1, 1)%float [(1, 2); (2, 2)]%float [] square);
    vm_compute; reflexivity.
Defined.

(** *** The bounding-box test as an order *)

Lemma doBBoxOverlap_true_iff (b1 b2 : BBox) :
  doBBoxOverlap b1 b2 = true <->
  PrimFloat.ltb (at0 b2) (at0 b1) = false /\
  PrimFloat.ltb (at1 b2) (at1 b1) = false /\
  PrimFloat.ltb (at2 b1) (at2 b2) = false /\
  PrimFloat.ltb (at3 b1) (at3 b2) = false.
Proof.
  unfold doBBoxOverlap.
  destruct (PrimFloat.ltb (at0 b2) (at0 b1));
    destruct (PrimFloat.ltb (at1 b2) (at1 b1));
    destruct (PrimFloat.ltb (at2 b1) (at2 b2));
    destruct (PrimFloat.ltb (at3 b1) (at3 b2));
    intuition discriminate.
Qed.

(** X17: the box test composes: when the first box passes against a second
    box of numbers and the second against a third, the first passes against
    the third; and two boxes of numbers that pass against each other have
    [===] entries. *)
Theorem doBBoxOverlap_order :
  forall b1 b2 b3 : BBox,
    numericBBox b2 ->
    doBBoxOverlap b1 b2 = true ->
    (doBBoxOverlap b2 b3 = true -> doBBoxOverlap b1 b3 = true) /\
    (numericBBox b1 -> doBBoxOverlap b2 b1 = true ->
     PrimFloat.eqb (at0 b1) (at0 b2) = true /\
     PrimFloat.eqb (at1 b1) (at1 b2) = true /\
     PrimFloat.eqb (at2 b1) (at2 b2) = true /\
     PrimFloat.eqb (at3 b1) (at3 b2) = true).
Proof.
  intros b1 b2 b3 (N0 & N1 & N2 & N3) H12.
  apply doBBoxOverlap_true_iff in H12. destruct H12 as (A0 & A1 & A2 & A3).
  split.
  - intros H23. apply doBBoxOverlap_true_iff in H23.
    destruct H23 as (B0 & B1 & B2 & B3).
    apply doBBoxOverlap_true_iff. repeat split.
    + apply (ltb_false_trans N0 A0 B0).
    + apply (ltb_false_trans N1 A1 B1).
    + apply (ltb_false_trans N2 B2 A2).
    + apply (ltb_false_trans N3 B3 A3).
  - intros (M0 & M1 & M2 & M3) H21. apply doBBoxOverlap_true_iff in H21.
    destruct H21 as (B0 & B1 & B2 & B3). repeat split.
    + apply (ltb_false_both_eqb M0 N0 B0 A0).
    + apply (ltb_false_both_eqb M1 N1 B1 A1).
    + apply (ltb_false_both_eqb M2 N2 A2 B2).
    + apply (ltb_false_both_eqb M3 N3 A3 B3).
Qed.

(** The box (0,0,10,10) contains (1,1,9,9), which contains (2,2,7,7); and
    the boxes (0,0,9,9) and (-0,-0,9,9) contain each other. *)
Lemma doBBoxOverlap_order_witness :
  doBBoxOverlap (0, 0, 10, 10)%float (2, 2, 7, 7)%float = true /\
  (PrimFloat.eqb (at0 (0, 0, 9, 9)%float)
                 (at0 (PrimFloat.opp 0, PrimFloat.opp 0, 9, 9)%float) = true /\
   PrimFloat.eqb (at1 (0, 0, 9, 9)%float)
                 (at1 (PrimFloat.opp 0, PrimFloat.opp 0, 9, 9)%float) = true /\
   PrimFloat.eqb (at2 (0, 0, 9, 9)%float)
                 (at2 (PrimFloat.opp 0, PrimFloat.opp 0, 9, 9)%float) = true /\
   PrimFloat.eqb (at3 (0, 0, 9, 9)%float)
                 (at3 (PrimFloat.opp 0, PrimFloat.opp 0, 9, 9)%float) = true).
Proof.
  split.
  - apply (proj1 (@doBBoxOverlap_order
                    (0, 0, 10, 10)%float (1, 1, 9, 9)%float (2, 2, 7, 7)%float
                    (conj eq_refl (conj eq_refl (conj eq_refl eq_refl)))
                    eq_refl)).
    reflexivity.
  - apply (proj2 (@doBBoxOverlap_order
                    (0, 0, 9, 9)%float
                    (PrimFloat.opp 0, PrimFloat.opp 0, 9, 9)%float
                    (0, 0, 0, 0)%float
                    (conj eq_refl (conj eq_refl (conj eq_refl eq_refl)))
                    eq_refl)).
    + repeat split.
    + reflexivity.
Defined.

(** *** The midpoint *)

(** X18: the midpoint of a segment does not depend on the direction in
    which the segment is read. *)
Theorem getMidpoint_comm :
  forall pair1 pair2 : Coord,
    getMidpoint pair1 pair2 = getMidpoint pair2 pair1.
Proof.
  intros pair1 pair2. unfold getMidpoint.
  rewrite (add_comm (fst pair1)), (add_comm (snd pair1)). reflexivity.
Qed.
